(** * splitcopy: a shallow embedding of [splitcopy.py]

    The script splits a file locally, copies the chunks to a Junos host in
    parallel over FTP or SCP, joins them remotely and compares SHA-1 digests.
    Everything it does to the outside world goes through a handful of calls:
    [subprocess.call] (nc, split, shasum), [ss.run] (one remote shell command,
    returning [(last_ok, text)]), the fan-out of [ftp_put]/[scp_put] and
    [print].  The embedding keeps the control flow of [main], [limit_check],
    [remote_cleanup], [port_check] and [UploadProgress.handle] as written and
    takes the answers of the outside world from a [world] record:

    - every [ss.run] call site of the script is executed at most once per run,
      so the remote host is a function from call sites to replies;
    - a run yields the list of events it caused (in order) and how it ended:
      a normal return, the Python exception that left [main], or the code of
      the [sys.exit] that ended it;
    - text is a [string] of code points below 256; the Python built-ins used
      on it ([split], [rstrip], [int], [re.search], [re.sub], ...) are written
      out in module [Py]. *)

From Stdlib Require Import ZArith String Ascii List Bool Lia.
From Stdlib Require Import DecimalString.
From Stdlib Require Import Floats.
Import ListNotations.

Local Open Scope string_scope.
Local Open Scope Z_scope.

(** ** Python built-ins on text and numbers *)

Module Py.

Definition LF : ascii := "010"%char.
Definition CR : ascii := "013"%char.
Definition DQ : ascii := "034"%char.

Definition nl : string := String LF EmptyString.
Definition crlf : string := String CR (String LF EmptyString).
Definition dq : string := String DQ EmptyString.

(** [str.isspace] on one code point below 256. *)
Definition is_space (c : ascii) : bool :=
  let n := nat_of_ascii c in
  ((9 <=? n) && (n <=? 13) || (28 <=? n) && (n <=? 32)
   || (n =? 133) || (n =? 160))%nat.

Definition is_digit (c : ascii) : bool :=
  let n := nat_of_ascii c in ((48 <=? n) && (n <=? 57))%nat.

Definition digit_val (c : ascii) : Z := Z.of_nat (nat_of_ascii c) - 48.

(** [str(n)] for an [int]. *)
Definition str (n : Z) : string := NilZero.string_of_int (Z.to_int n).

Definition cons_head (c : ascii) (l : list string) : list string :=
  match l with
  | h :: t => String c h :: t
  | [] => [String c EmptyString]
  end.

(** Splitting at every character that satisfies [p]: [s.split(c)] for a
    one-character separator, and [re.split('/| ', s)]. *)
Fixpoint split_on (p : ascii -> bool) (s : string) : list string :=
  match s with
  | EmptyString => [EmptyString]
  | String c r =>
      if p c then EmptyString :: split_on p r
      else cons_head c (split_on p r)
  end.

(** [s.split('\n')] *)
Definition split_lines (s : string) : list string :=
  split_on (Ascii.eqb LF) s.

(** [s.split('\r\n')] *)
Fixpoint split_crlf (s : string) : list string :=
  match s with
  | EmptyString => [EmptyString]
  | String c r =>
      match r with
      | String d r' =>
          if Ascii.eqb c CR && Ascii.eqb d LF
          then EmptyString :: split_crlf r'
          else cons_head c (split_crlf r)
      | EmptyString => [String c EmptyString]
      end
  end.

Definition nonempty (s : string) : bool :=
  match s with EmptyString => false | _ => true end.

(** [s.split()]: the maximal runs of non-whitespace. *)
Definition split (s : string) : list string :=
  filter nonempty (split_on is_space s).

(** [s.rstrip()] *)
Fixpoint rstrip (s : string) : string :=
  match s with
  | EmptyString => EmptyString
  | String c r =>
      match rstrip r with
      | EmptyString => if is_space c then EmptyString else String c EmptyString
      | r' => String c r'
      end
  end.

(** [s.lstrip()] *)
Fixpoint lstrip (s : string) : string :=
  match s with
  | EmptyString => EmptyString
  | String c r => if is_space c then lstrip r else s
  end.

(** [s.upper()] on ASCII letters. *)
Definition upper_char (c : ascii) : ascii :=
  let n := nat_of_ascii c in
  if ((97 <=? n) && (n <=? 122))%nat then ascii_of_nat (n - 32) else c.

Fixpoint upper (s : string) : string :=
  match s with
  | EmptyString => EmptyString
  | String c r => String (upper_char c) (upper r)
  end.

(** [l[i]]: [IndexError] is [None]. *)
Definition index {A} (l : list A) (i : nat) : option A := nth_error l i.

(** [re.match(lit, s) is not None] for a literal pattern. *)
Definition re_match (lit s : string) : bool := String.prefix lit s.

(** [re.search(lit, s) != None] for a literal pattern. *)
Fixpoint re_search (lit s : string) : bool :=
  String.prefix lit s
  || match s with
     | EmptyString => false
     | String _ r => re_search lit r
     end.

(** What [.*] takes: everything up to the next line feed. *)
Fixpoint upto_lf (s : string) : string :=
  match s with
  | EmptyString => EmptyString
  | String c r => if Ascii.eqb c LF then EmptyString else String c (upto_lf r)
  end.

(** [re.search(lit + '.*', s)]: [Some (m.group(0))] at the leftmost
    occurrence of the literal (which holds no line feed), [None] when the
    search returns [None]. *)
Fixpoint re_search_line (lit s : string) : option string :=
  if String.prefix lit s then Some (upto_lf s)
  else match s with
       | EmptyString => None
       | String _ r => re_search_line lit r
       end.

(** [s] matches [[0-9]+$] from its first character on: one or more digits,
    then the end of the text or the line feed that ends it.  The result is
    what is left after the digits. *)
Fixpoint digits_then_end (seen : bool) (s : string) : option string :=
  match s with
  | EmptyString => if seen then Some EmptyString else None
  | String c r =>
      if is_digit c then digits_then_end true r
      else if seen && Ascii.eqb c LF && negb (nonempty r) then Some s
      else None
  end.

(** [re.sub(' [0-9]+$', '', s)] *)
Fixpoint sub_trailing_number (s : string) : string :=
  match s with
  | EmptyString => EmptyString
  | String c r =>
      match (if Ascii.eqb c " " then digits_then_end false r else None) with
      | Some rest => rest
      | None => String c (sub_trailing_number r)
      end
  end.

(** [re.sub(pat, rep, s)] for a non-empty literal [pat]: [skip] counts the
    characters of the occurrence being replaced that are still to drop. *)
Fixpoint sub_literal_from (pat rep : string) (skip : nat) (s : string) : string :=
  match s with
  | EmptyString => EmptyString
  | String c r =>
      match skip with
      | S k => sub_literal_from pat rep k r
      | O =>
          if String.prefix pat s
          then rep ++ sub_literal_from pat rep (String.length pat - 1) r
          else String c (sub_literal_from pat rep O r)
      end
  end.

Definition re_sub_literal (pat rep s : string) : string :=
  sub_literal_from pat rep O s.

(** The digits of an [int] literal: decimal digits, with single underscores
    allowed between two digits. *)
Fixpoint int_digits (acc : Z) (after_digit : bool) (s : string) : option Z :=
  match s with
  | EmptyString => if after_digit then Some acc else None
  | String c r =>
      if is_digit c then int_digits (10 * acc + digit_val c) true r
      else if Ascii.eqb c "_" && after_digit then int_digits acc false r
      else None
  end.

(** [int(s)] for a [str]: [ValueError] is [None]. *)
Definition int (s : string) : option Z :=
  match rstrip (lstrip s) with
  | String "-" r => option_map Z.opp (int_digits 0 false r)
  | String "+" r => int_digits 0 false r
  | t => int_digits 0 false t
  end.

(** Binary64 arithmetic, as [int / int], [float * int] and [round(float)]
    compute it. *)
Definition prec : Z := 53.
Definition emax : Z := 1024.

Definition float_of_int (z : Z) : spec_float :=
  match z with
  | Z0 => S754_zero false
  | Zpos p => S754_finite false p 0
  | Zneg p => S754_finite true p 0
  end.

(** [round(x)]: to the nearest integer, ties to even. *)
Definition round (x : spec_float) : option Z :=
  match x with
  | S754_zero _ => Some 0
  | S754_finite sg m e =>
      let mag :=
        if 0 <=? e then Z.pos m * 2 ^ e
        else
          let d := 2 ^ (- e) in
          let q := Z.pos m / d in
          let r := Z.pos m mod d in
          if 2 * r <? d then q
          else if d <? 2 * r then q + 1
          else if Z.even q then q else q + 1 in
      Some (if sg then - mag else mag)
  | _ => None
  end.

End Py.

Arguments Py.index : simpl never.
Arguments Py.split_lines : simpl never.
Arguments Py.split_crlf : simpl never.
Arguments Py.split_on : simpl never.
Arguments Py.split : simpl never.
Arguments Py.rstrip : simpl never.
Arguments Py.lstrip : simpl never.
Arguments Py.upper : simpl never.
Arguments Py.re_match : simpl never.
Arguments Py.re_search : simpl never.
Arguments Py.re_search_line : simpl never.
Arguments Py.sub_trailing_number : simpl never.
Arguments Py.re_sub_literal : simpl never.
Arguments Py.int : simpl never.
Arguments Py.str : simpl never.
Arguments Py.round : simpl never.

Example split_lines_ex :
  Py.split_lines ("uname -i" ++ Py.nl ++ "JNPR-11.0" ++ Py.nl ++ "% ")
  = ["uname -i"; "JNPR-11.0"; "% "].
Proof. reflexivity. Qed.

Example split_ws_ex : Py.split "  a  bc d " = ["a"; "bc"; "d"].
Proof. reflexivity. Qed.

Example split_crlf_ex :
  Py.split_crlf ("a" ++ Py.crlf ++ Py.crlf ++ "b" ++ Py.nl ++ "c")
  = ["a"; ""; "b" ++ Py.nl ++ "c"].
Proof. reflexivity. Qed.

Example rstrip_ex : Py.rstrip (" a b " ++ Py.crlf) = " a b".
Proof. reflexivity. Qed.

Example int_ex :
  (Py.int " 10 ", Py.int "-7", Py.int "1_000", Py.int "1__0", Py.int "", Py.int "x")
  = (Some 10, Some (-7), Some 1000, None, None, None).
Proof. reflexivity. Qed.

Example sub_trailing_number_ex :
  ( Py.sub_trailing_number "set system services ssh connection-limit 10",
    Py.sub_trailing_number "a 1 2", Py.sub_trailing_number "a12",
    Py.sub_trailing_number ("a 12" ++ Py.nl) )
  = ("set system services ssh connection-limit", "a 1", "a12", "a" ++ Py.nl).
Proof. reflexivity. Qed.

Example re_sub_literal_ex :
  Py.re_sub_literal "set" "deactivate" "set groups reset ssh"
  = "deactivate groups redeactivate ssh".
Proof. reflexivity. Qed.

Example str_ex : (Py.str 0, Py.str 21125000, Py.str (-3)) = ("0", "21125000", "-3").
Proof. reflexivity. Qed.

(** ** Exceptions, events and runs *)

(** The Python exceptions the script catches or lets through, raised by the
    libraries it calls and by its own indexing and parsing.  [SystemExit] is
    not among them: only the script's own [sys.exit] raises it, and no
    [except] clause of the script catches it, so it is an outcome of its own
    ([Exit]).  [KeyboardInterrupt] is not a subclass of [Exception];
    [TimeoutExpired] is a [SubprocessError]; [BadAuthenticationType] is an
    [AuthenticationException], and that, [BadHostKeyException] and
    [ChannelException] are [SSHException]s. *)
Inductive exn : Type :=
| KeyboardInterrupt
| SCPException (msg : string)
| BadAuthenticationType
| AuthenticationException
| BadHostKeyException
| ChannelException (msg : string)
| SSHException
| TimeoutExpired (msg : string)
| SubprocessError (msg : string)
| IndexError
| ValueError
| AttributeError
| ZeroDivisionError
| OverflowError
| UnboundLocalError
| PlainException
| OtherError.

(** [isinstance(e, Exception)] *)
Definition is_Exception (e : exn) : bool :=
  match e with
  | KeyboardInterrupt => false
  | _ => true
  end.

(** The two transfer functions [copy_func] ranges over. *)
Inductive copy_func : Type := ftp_put | scp_put.

Definition copy_func_eqb (f g : copy_func) : bool :=
  match f, g with
  | ftp_put, ftp_put | scp_put, scp_put => true
  | _, _ => false
  end.

(** The [ss.run] call sites of the script (and which [remote_cleanup] call a
    cleanup command comes from). *)
Inductive site : Type :=
| Uname                       (* main: uname -i *)
| TestDir                     (* main: test -d *)
| CleanupStale                (* main: cleanup previous tmp directory *)
| Df                          (* main: df *)
| Mkdir                       (* main: mkdir *)
| Inetd                       (* limit_check: cat /etc/inetd.conf *)
| ShowConn (p_name : string)  (* limit_check: ... grep connection-limit *)
| ShowRate (p_name : string)  (* limit_check: ... grep rate-limit *)
| Commit                      (* limit_check: edit; ...; commit and-quit *)
| CleanupScpError             (* main: except scp.SCPException *)
| CleanupInterrupt            (* main: except KeyboardInterrupt, around gather *)
| Join                        (* main: cat chunks > file *)
| CleanupJoined               (* main: remove remote tmp dir *)
| Ls                          (* main: ls *)
| Sha1                        (* main: sha1 *)
| CleanupMismatch             (* main: sha1 do not match *)
| CleanupMissing              (* main: file not found *)
| CleanupOuterInterrupt.      (* main: outer except KeyboardInterrupt *)

(** What a run does to the outside world, in order. *)
Inductive event : Type :=
| Out (msg : string)                    (* print(msg) *)
| OutTimes                              (* the closing print of the two durations *)
| Nc (port : string)                    (* subprocess.call(['nc', '-z', host, port]) *)
| OpenShell                             (* entering [with StartShell(dev) as ss] *)
| Shasum                                (* subprocess.check_output(['shasum', file_path]) *)
| SplitCmd (split_size : string)        (* subprocess.call(['split', '-b', split_size, ...]) *)
| Run (s : site) (cmd : string)         (* ss.run(cmd) *)
| Put (f : copy_func) (sfile : string)  (* loop.run_in_executor(None, partial(copy_func, dev, sfile, ...)) *)
| Gather                                (* loop.run_until_complete(asyncio.gather( *tasks)) *)
| DevClose.                             (* dev.close() *)

Inductive result (A : Type) : Type :=
| Ok (a : A)          (* it returned *)
| Raise (e : exn)     (* it raised an exception *)
| Exit (code : Z).    (* it called sys.exit(code) *)
Arguments Ok {A} a.
Arguments Raise {A} e.
Arguments Exit {A} code.

(** A computation: the events it caused and how it ended. *)
Definition M (A : Type) : Type := (list event * result A)%type.

Definition ret {A} (a : A) : M A := ([], Ok a).

Definition bind {A B} (m : M A) (k : A -> M B) : M B :=
  match snd m with
  | Ok a => let r := k a in ((fst m ++ fst r)%list, snd r)
  | Raise e => (fst m, Raise e)
  | Exit code => (fst m, Exit code)
  end.

Definition raise {A} (e : exn) : M A := ([], Raise e).

Definition emit (e : event) : M unit := ([e], Ok tt).

(** [print(msg)] *)
Definition out (msg : string) : M unit := emit (Out msg).

(** [sys.exit(code)] *)
Definition sys_exit {A} (code : Z) : M A := ([], Exit code).

(** [try: m  except ...: h]: [h e] is the body of the first clause that
    matches [e], [None] when no clause does. *)
Definition try_except {A} (m : M A) (h : exn -> option (M A)) : M A :=
  match snd m with
  | Raise e =>
      match h e with
      | Some k => ((fst m ++ fst k)%list, snd k)
      | None => m
      end
  | _ => m
  end.

(** A value that Python computes with a possible exception. *)
Definition lift {A} (e : exn) (o : option A) : M A :=
  match o with
  | Some a => ret a
  | None => raise e
  end.

Declare Scope py_scope.
Delimit Scope py_scope with py.
Notation "x <- m ;; k" := (bind m (fun x => k))
  (at level 61, m at next level, right associativity) : py_scope.
Notation "m ;; k" := (bind m (fun _ => k))
  (at level 61, right associativity) : py_scope.
Local Open Scope py_scope.

Definition trace {A} (m : M A) : list event := fst m.
Definition outcome {A} (m : M A) : result A := snd m.

(** The exit status of the process for a run of [main]: 0 on a normal
    return, the argument of [sys.exit], 1 for an uncaught exception (the
    interpreter prints the traceback and ends with status 1; after an
    uncaught [KeyboardInterrupt] it ends unsuccessfully as well, with status
    1 up to Python 3.7 and by the signal from 3.8 on, and no statement below
    rests on the status of that one case). *)
Definition exit_status (r : result unit) : Z :=
  match r with
  | Ok _ => 0
  | Exit code => code
  | Raise _ => 1
  end.

(** ** The outside world *)

(** What a library call or the evaluation of an expression gives: its
    value, or the exception it raised. *)
Inductive called (A : Type) : Type :=
| Returned (a : A)
| Raised (e : exn).
Arguments Returned {A} a.
Arguments Raised {A} e.

Record args : Type := {
  filepath : string;
  host : string;
  remotedir_opt : option string;   (* -d *)
  scp_flag : bool                  (* -s *)
}.

Record world : Type := {
  isfile : bool;                   (* os.path.isfile(args.filepath) *)
  getsize : Z;                     (* os.path.getsize(file_path) *)
  nc : string -> called Z;         (* nc -z host port, by port *)
  shell_open : option exn;         (* what entering StartShell(dev) raises *)
  sha1_file : option string;       (* the text of file_path + '.sha1' when it is a file *)
  shasum : called string;          (* check_output(['shasum', file_path]).decode() *)
  split_call : called Z;           (* subprocess.call(['split', ...]) *)
  listing : list string;           (* the entries of '.' that fnmatch file_name + '*' *)
  shell : site -> bool * string;   (* ss.run at each call site: (last_ok, text) *)
  callbacks : list nat;            (* the FTP block callbacks in order of arrival, by chunk *)
  gathered : option exn            (* what run_until_complete(gather( *tasks)) raises *)
}.

(** [ss.run(cmd)] at call site [s]. *)
Definition run (w : world) (s : site) (cmd : string) : M (bool * string) :=
  emit (Run s cmd) ;; ret (shell w s).

Definition call {A} (e : event) (c : called A) : M A :=
  emit e ;; match c with Returned a => ret a | Raised x => raise x end.

(** ** [port_check] *)

Definition port_check (w : world) (proto port : string) : M bool :=
  failure <-
    try_except
      (code <- call (Nc port) (nc w port) ;;
       if negb (code =? 0)
       then out ("remote " ++ proto ++ " port " ++ port ++ " isnt open") ;; ret true
       else ret false)
      (fun e =>
         match e with
         | TimeoutExpired _ =>
             Some (out (proto ++ " port check timed out after 10 seconds"
                        ++ ", is the host reacheable and " ++ proto ++ " enabled?") ;;
                   ret true)
         | SubprocessError err =>
             Some (out ("an error occurred during remote " ++ proto ++ " port check, "
                        ++ "the error was:" ++ Py.nl ++ err) ;;
                   ret true)
         | _ => None
         end) ;;
  if failure then ret false else ret true.

(** ** [remote_cleanup] *)

Definition staging (remotedir file_name : string) : string :=
  remotedir ++ "/splitcopy_" ++ file_name.

Definition remote_cleanup (w : world) (s : site) (remotedir file_name : string)
  : M bool :=
  out "deleting remote tmp directory..." ;;
  r <- run w s ("rm -rf " ++ staging remotedir file_name) ;;
  if negb (fst r)
  then out ("unable to delete the tmp directory on remote host,"
            ++ " delete it manually") ;;
       ret false
  else ret true.

(** ** [main]: chunk size *)

(** [divmod(file_size, n)[0]] of the branch taken (lines 155-172). *)
Definition split_bytes (w : world) (file_size : Z) (f : copy_func) : M Z :=
  if copy_func_eqb f ftp_put then ret (file_size / 40)
  else
    ver <- run w Uname "uname -i" ;;
    if fst ver then
      line <- lift IndexError (Py.index (Py.split_lines (snd ver)) 1) ;;
      let verstring := Py.rstrip line in
      if Py.re_match "JNPR" verstring
      then ret (file_size / 20)
      else ret (file_size / 13)
    else ret (file_size / 13).

(** [split_size], the text handed to [split -b]. *)
Definition split_size (w : world) (file_size : Z) (f : copy_func) : M string :=
  n <- split_bytes w file_size f ;; ret (Py.str n).

(** ** [UploadProgress] *)

Record UploadProgress : Type := {
  block_size : Z;
  file_size : Z;
  last_percent : Z
}.

(** [UploadProgress(file_size)] *)
Definition UploadProgress_init (file_size : Z) : UploadProgress :=
  {| block_size := 0; file_size := file_size; last_percent := 0 |}.

(** [round((block_size / file_size) * 100)]: true division of two [int]s
    (correctly rounded to binary64), a binary64 product, and [round]. *)
Definition percent_of (block_size file_size : Z) : called Z :=
  if file_size =? 0 then Raised ZeroDivisionError
  else
    let ratio := SFdiv Py.prec Py.emax (Py.float_of_int block_size)
                       (Py.float_of_int file_size) in
    match Py.round (SFmul Py.prec Py.emax ratio (Py.float_of_int 100)) with
    | Some p => Returned p
    | None => Raised OverflowError
    end.

(** [handle(self, arg)]: the object after the call, and what the call did. *)
Definition handle (self : UploadProgress) : UploadProgress * M unit :=
  let self :=
    {| block_size := block_size self + 8192;
       file_size := file_size self;
       last_percent := last_percent self |} in
  match percent_of (block_size self) (file_size self) with
  | Raised e => (self, raise e)
  | Returned percent_done =>
      if negb (last_percent self =? percent_done) then
        let self :=
          {| block_size := block_size self;
             file_size := file_size self;
             last_percent := percent_done |} in
        if percent_done mod 10 =? 0
        then (self, out (Py.str percent_done ++ "% done"))
        else (self, ret tt)
      else (self, ret tt)
  end.

(** Objects live in a heap and are passed by reference: [kvargs] is built
    once, so every task receives the same bound method of one object. *)
Definition heap : Type := list UploadProgress.
Definition ref : Type := nat.

Definition alloc (h : heap) (o : UploadProgress) : ref * heap :=
  (length h, (h ++ [o])%list).

Fixpoint store (h : heap) (r : ref) (o : UploadProgress) : heap :=
  match h, r with
  | [], _ => []
  | _ :: t, O => o :: t
  | x :: t, S r' => x :: store t r' o
  end.

Inductive kvargs : Type :=
| FtpArgs (callback : ref)    (* {'callback': UploadProgress(file_size).handle} *)
| ScpArgs.                    (* {'progress': True, 'socket_timeout': 30.0} *)

(** A dispatched task: [partial(copy_func, dev, sfile, file_name, remotedir, **kvargs)]. *)
Record task : Type := {
  task_func : copy_func;
  task_sfile : string;
  task_kvargs : kvargs
}.

(** One block callback of task [t]: the call [callback(block)] on the object
    its [kvargs] refer to. *)
Definition callback (h : heap) (t : task) : heap * list event :=
  match task_kvargs t with
  | FtpArgs r =>
      match nth_error h r with
      | Some self => let (self', m) := handle self in (store h r self', trace m)
      | None => (h, [])
      end
  | ScpArgs => (h, [])
  end.

(** The callbacks of a transfer, in their order of arrival; each names the
    task (by position) whose connection sent a block. *)
Fixpoint run_callbacks (h : heap) (tasks : list task) (arrivals : list nat)
  : heap * list event :=
  match arrivals with
  | [] => (h, [])
  | i :: rest =>
      match nth_error tasks i with
      | Some t =>
          let (h1, ev1) := callback h t in
          let (h2, ev2) := run_callbacks h1 tasks rest in
          (h2, (ev1 ++ ev2)%list)
      | None => run_callbacks h tasks rest
      end
  end.

(** ** [limit_check] *)

(** One limit of one service: fetch the statement that sets it and rewrite
    it (lines 522-532 and 537-547). *)
Definition deactivate_statement (w : world) (s : site) (p_name limit : string)
  : M string :=
  d_config <- run w s ("cli -c " ++ Py.dq ++ "show configuration | display set "
                       ++ "| grep " ++ p_name ++ " | grep " ++ limit ++ Py.dq) ;;
  if fst d_config && Py.re_search limit (snd d_config) then
    d_config <- lift IndexError (Py.index (Py.split_crlf (snd d_config)) 1) ;;
    let d_config := Py.sub_trailing_number d_config in
    let d_config := Py.re_sub_literal "set" "deactivate" d_config in
    ret (d_config ++ ";")
  else raise PlainException.

Definition slash_or_space (c : ascii) : bool :=
  Ascii.eqb c "/" || Ascii.eqb c " ".

(** The body of [for port in port_conf]. *)
Definition check_port (w : world) (port : string) (command_list : list string)
  : M (list string) :=
  let config := Py.split_on slash_or_space port in
  p_name <- lift IndexError (Py.index config 0) ;;
  c5 <- lift IndexError (Py.index config 5) ;;
  con_lim <- lift ValueError (Py.int c5) ;;
  c6 <- lift IndexError (Py.index config 6) ;;
  rate_lim <- lift ValueError (Py.int c6) ;;
  try_except
    (command_list <-
       (if con_lim <? 25 then
          out (Py.upper p_name ++ " configured connection-limit is under 25") ;;
          st <- deactivate_statement w (ShowConn p_name) p_name "connection-limit" ;;
          ret (command_list ++ [st])%list
        else ret command_list) ;;
     if rate_lim <? 100 then
       out (Py.upper p_name ++ " configured rate limit is under 100") ;;
       st <- deactivate_statement w (ShowRate p_name) p_name "rate-limit" ;;
       ret (command_list ++ [st])%list
     else ret command_list)
    (fun e =>
       if is_Exception e
       then Some (out ("Error: failed to determine configured limits, "
                       ++ "cannot proceed") ;;
                  sys_exit 1)
       else None).

Fixpoint check_ports (w : world) (port_conf : list string)
  (command_list : list string) : M (list string) :=
  match port_conf with
  | [] => ret command_list
  | port :: rest =>
      command_list <- check_port w port command_list ;;
      check_ports w rest command_list
  end.

(** [re.search(lit + '.*', text).group(0)] *)
Definition service_line (lit text : string) : M string :=
  lift AttributeError (Py.re_search_line lit text).

(** [''.join(l)] *)
Definition join (l : list string) : string := String.concat "" l.

Definition commit_command (command_list : list string) : string :=
  "cli -c " ++ Py.dq ++ "edit;" ++ join command_list ++ "commit and-quit" ++ Py.dq.

Definition limit_check (w : world) (con_type : string) : M unit :=
  inetd <- run w Inetd "cat /etc/inetd.conf" ;;
  (if negb (fst inetd)
   then out ("Error: failed to read /etc/inetd.conf, cant determine connection"
             ++ " limits") ;;
        sys_exit 1
   else ret tt) ;;
  port_conf <-
    (if String.eqb con_type "ftp" then
       f <- service_line "ftp stream tcp/" (snd inetd) ;;
       s <- service_line "ssh stream tcp/" (snd inetd) ;;
       ret [f; s]
     else
       s <- service_line "ssh stream tcp/" (snd inetd) ;;
       ret [s]) ;;
  command_list <- check_ports w port_conf [] ;;
  try_except
    (match command_list with
     | [] => ret tt
     | _ =>
         r <- run w Commit (commit_command command_list) ;;
         if fst r
         then out ("NOTICE: the configuration has been modified. "
                   ++ "deactivated the limit(s) found")
         else raise PlainException
     end)
    (fun e =>
       if is_Exception e
       then Some (out "Error: failed to deactivate limits. Cannot proceed" ;;
                  sys_exit 1)
       else None).

(** ** [main] *)

(** [s.rsplit('/', 1)[1]] for a text that holds a slash. *)
Fixpoint after_last_slash (s : string) : string :=
  match s with
  | EmptyString => EmptyString
  | String c r =>
      if Ascii.eqb c "/" && negb (Py.re_search "/" r) then r
      else after_last_slash r
  end.

(** Lines 140-153: the local SHA-1, cached or computed. *)
Definition local_sha1 (w : world) : M string :=
  match sha1_file w with
  | Some text => ret (Py.rstrip text)
  | None =>
      out "sha1 not found, generating sha1..." ;;
      sha1_str <-
        try_except (call Shasum (shasum w))
          (fun e =>
             match e with
             | SubprocessError err | TimeoutExpired err =>
                 Some (out ("an error occurred generating a local sha1, "
                            ++ "the error was:" ++ Py.nl ++ err) ;;
                       sys_exit 1)
             | _ => None
             end) ;;
      lift IndexError (Py.index (Py.split sha1_str) 0)
  end.

(** Lines 174-188: the local split; its return code is not looked at. *)
Definition split_file (w : world) (split_size : string) : M unit :=
  out "splitting file..." ;;
  try_except
    (_ <- call (SplitCmd split_size) (split_call w) ;; ret tt)
    (fun e =>
       match e with
       | TimeoutExpired _ =>
           Some (out "splitting the file timed out after 10 mins" ;; sys_exit 1)
       | SubprocessError err =>
           Some (out ("an error occurred while splitting the file, "
                      ++ "the error was:" ++ Py.nl ++ err) ;;
                 sys_exit 1)
       | _ => None
       end).

(** Lines 211-212: [avail_bytes] out of the text [df] printed. *)
Definition avail_bytes_of (text : string) : M Z :=
  line <- lift IndexError (Py.index (Py.split_lines text) 2) ;;
  field <- lift IndexError (Py.index (Py.split line) 3) ;;
  let avail_blocks := Py.rstrip field in
  n <- lift ValueError (Py.int avail_blocks) ;;
  ret (n * 512).

(** Lines 205-218: the remote file system storage check. *)
Definition storage_check (w : world) (remotedir : string) (file_size : Z)
  : M unit :=
  out "checking remote storage..." ;;
  df_tuple <- run w Df ("df " ++ remotedir) ;;
  (if negb (fst df_tuple)
   then out "failed to determine remote disk space available" ;; sys_exit 1
   else ret tt) ;;
  avail_bytes <- avail_bytes_of (snd df_tuple) ;;
  if file_size * 2 >? avail_bytes
  then out ("not enough space on remote host. Available space "
            ++ "must be 2x the original file size because it has to "
            ++ "store the file chunks and the whole file at the "
            ++ "same time") ;;
       sys_exit 1
  else ret tt.

(** Lines 195-224: the pre transfer checks and the creation of the remote
    tmp directory. *)
Definition pre_transfer (w : world) (remotedir file_name : string)
  (file_size : Z) : M unit :=
  r <- run w TestDir ("test -d " ++ remotedir) ;;
  (if negb (fst r)
   then out "remote directory specified does not exist" ;; sys_exit 1
   else ret tt) ;;
  cleaned <- remote_cleanup w CleanupStale remotedir file_name ;;
  (if negb cleaned then sys_exit 1 else ret tt) ;;
  storage_check w remotedir file_size ;;
  r <- run w Mkdir ("mkdir " ++ staging remotedir file_name) ;;
  if negb (fst r)
  then out "unable to create the tmp directory on remote host" ;; sys_exit 1
  else ret tt.

(** Lines 238-246: one task per chunk, all with the same [kvargs]. *)
Definition make_tasks (f : copy_func) (kv : kvargs) (sfiles : list string)
  : list task :=
  map (fun sfile => {| task_func := f; task_sfile := sfile; task_kvargs := kv |})
      sfiles.

Fixpoint dispatch (tasks : list task) : M unit :=
  match tasks with
  | [] => ret tt
  | t :: rest => emit (Put (task_func t) (task_sfile t)) ;; dispatch rest
  end.

(** Lines 226-258: limit check, fan-out and fan-in. *)
Definition transfer (w : world) (f : copy_func) (remotedir file_name : string)
  (file_size : Z) (sfiles : list string) : M unit :=
  hk <-
    (if copy_func_eqb f ftp_put then
       limit_check w "ftp" ;;
       let (r, h) := alloc [] (UploadProgress_init file_size) in
       ret (h, FtpArgs r)
     else
       limit_check w "ssh" ;;
       ret ([], ScpArgs)) ;;
  let tasks := make_tasks f (snd hk) sfiles in
  out "starting transfer..." ;;
  dispatch tasks ;;
  try_except
    (emit Gather ;;
     (snd (run_callbacks (fst hk) tasks (callbacks w)), Ok tt) ;;
     match gathered w with
     | Some e => raise e
     | None => ret tt
     end)
    (fun e =>
       match e with
       | SCPException err =>
           Some (out ("scp returned the following error:" ++ Py.nl ++ err) ;;
                 remote_cleanup w CleanupScpError remotedir file_name ;;
                 sys_exit 1)
       | KeyboardInterrupt =>
           Some (remote_cleanup w CleanupInterrupt remotedir file_name ;;
                 sys_exit 1)
       | _ => None
       end).

Definition destination (h remotedir file_name : string) : string :=
  h ++ ":" ++ remotedir ++ "/" ++ file_name.

(** Lines 280-281: [new_sha1] out of the text [sha1] printed. *)
Definition new_sha1_of (text : string) : M string :=
  line <- lift IndexError (Py.index (Py.split_lines text) 1) ;;
  field <- lift IndexError (Py.index (Py.split line) 3) ;;
  ret (Py.rstrip field).

(** Lines 260-302: join, removal of the remote tmp directory, verification. *)
Definition join_and_verify (w : world) (h remotedir file_name orig_sha1 : string)
  : M unit :=
  out "joining files..." ;;
  r <- run w Join ("cat " ++ staging remotedir file_name ++ "/* > "
                   ++ remotedir ++ "/" ++ file_name) ;;
  (if negb (fst r)
   then out "failed to combine chunks on remote host" ;; sys_exit 1
   else ret tt) ;;
  remote_cleanup w CleanupJoined remotedir file_name ;;
  out "generating remote sha1..." ;;
  r <- run w Ls ("ls " ++ remotedir ++ "/" ++ file_name) ;;
  if fst r then
    sha1_tuple <- run w Sha1 ("sha1 " ++ remotedir ++ "/" ++ file_name) ;;
    if fst sha1_tuple then
      new_sha1 <- new_sha1_of (snd sha1_tuple) ;;
      if String.eqb orig_sha1 new_sha1 then
        out ("local and remote sha1 match" ++ Py.nl ++ "file has been "
             ++ "successfully copied to " ++ destination h remotedir file_name)
      else
        out ("file has been copied to " ++ destination h remotedir file_name
             ++ ", but the " ++ "local and remote sha1 do not match - "
             ++ "please retry") ;;
        remote_cleanup w CleanupMismatch remotedir file_name ;;
        sys_exit 1
    else
      out ("remote sha1 verification didnt complete, "
           ++ "manually check the output of " ++ Py.dq ++ "sha1 <file>" ++ Py.dq
           ++ " and " ++ "compare against " ++ orig_sha1)
  else
    out ("file " ++ destination h remotedir file_name ++ " not found! please retry") ;;
    remote_cleanup w CleanupMissing remotedir file_name ;;
    sys_exit 1.

(** Lines 139-302: the body of [with StartShell(dev) as ss]. *)
Definition session (w : world) (h remotedir file_name : string) (file_size : Z)
  (f : copy_func) : M unit :=
  emit OpenShell ;;
  match shell_open w with
  | Some e => raise e
  | None =>
      orig_sha1 <- local_sha1 w ;;
      split_size <- split_size w file_size f ;;
      split_file w split_size ;;
      let sfiles := listing w in
      pre_transfer w remotedir file_name file_size ;;
      transfer w f remotedir file_name file_size sfiles ;;
      join_and_verify w h remotedir file_name orig_sha1
  end.

(** Lines 304-329: the [except] clauses of [main], first match first.  [ss]
    is bound only once the shell has been entered. *)
Definition handlers (w : world) (remotedir file_name : string) (e : exn)
  : option (M unit) :=
  match e with
  | BadAuthenticationType =>
      Some (out "authentication type used isnt allowed by the host" ;; sys_exit 1)
  | AuthenticationException =>
      Some (out "ssh authentication failed" ;; sys_exit 1)
  | BadHostKeyException =>
      Some (out ("host key verification failed. delete the host key in "
                 ++ "~/.ssh/known_hosts and retry") ;;
            sys_exit 1)
  | ChannelException err =>
      Some (out ("an attempt to open a new ssh channel failed. "
                 ++ " error code returned was:" ++ Py.nl ++ err) ;;
            sys_exit 1)
  | SSHException =>
      Some (out "an ssh error occurred" ;; sys_exit 1)
  | KeyboardInterrupt =>
      Some (match shell_open w with
            | Some _ => raise UnboundLocalError
            | None =>
                remote_cleanup w CleanupOuterInterrupt remotedir file_name ;;
                sys_exit 1
            end)
  | _ => None
  end.

(** Lines 124-133: the port checks and the choice of [copy_func]. *)
Definition select_copy_func (w : world) (a : args) : M copy_func :=
  out "checking remote port(s) are open..." ;;
  ssh_open <- port_check w "ssh" "22" ;;
  (if negb ssh_open then sys_exit 1 else ret tt) ;;
  if scp_flag a then ret scp_put
  else
    ftp_open <- port_check w "ftp" "21" ;;
    if ftp_open then ret ftp_put else ret scp_put.

(** Lines 105-108: the remote directory, [/var/tmp] unless [-d] names one. *)
Definition remotedir_of (a : args) : string :=
  match remotedir_opt a with
  | Some d => d
  | None => "/var/tmp"
  end.

(** Lines 115-118: the file name, the path after its last slash. *)
Definition file_name_of (a : args) : string :=
  if Py.re_search "/" (filepath a) then after_last_slash (filepath a)
  else filepath a.

(** [main], from line 105 on (the arguments are parsed and the password is
    known). *)
Definition main (a : args) (w : world) : M unit :=
  let remotedir := remotedir_of a in
  (if negb (isfile w)
   then out ("source file " ++ filepath a ++ " does not exist - cannot proceed") ;;
        sys_exit 1
   else ret tt) ;;
  let file_name := file_name_of a in
  let file_size := getsize w in
  f <- select_copy_func w a ;;
  try_except (session w (host a) remotedir file_name file_size f)
             (handlers w remotedir file_name) ;;
  emit DevClose ;;
  emit OutTimes.

Arguments port_check : simpl never.
Arguments remote_cleanup : simpl never.
Arguments split_bytes : simpl never.
Arguments split_size : simpl never.
Arguments local_sha1 : simpl never.
Arguments split_file : simpl never.
Arguments storage_check : simpl never.
Arguments pre_transfer : simpl never.
Arguments deactivate_statement : simpl never.
Arguments check_port : simpl never.
Arguments limit_check : simpl never.
Arguments transfer : simpl never.
Arguments join_and_verify : simpl never.
Arguments session : simpl never.
Arguments select_copy_func : simpl never.
Arguments main : simpl never.

(** ** A sample device *)

Module Sample.

Definition prompt : string := Py.crlf ++ "% ".

(** What the shell session shows for a command: the echoed command line,
    its output, the next prompt. *)
Definition screen (cmd output : string) : string :=
  cmd ++ Py.crlf ++ output ++ prompt.

Definition sha : string := "da39a3ee5e6b4b0d3255bfef95601890afd80709".

Definition inetd_conf : string :=
  "ftp stream tcp/0/0/10/50 nowait root /usr/libexec/ftpd ftpd" ++ Py.crlf
  ++ "ssh stream tcp/0/0/75/150 nowait root /usr/sbin/sshd sshd -i".

Definition device (s : site) : bool * string :=
  match s with
  | Uname => (true, screen "uname -i" "JNPR-11.0-20180730")
  | Df =>
      (true, screen "df /var/tmp"
               ("Filesystem 512-blocks Used Avail Capacity Mounted on" ++ Py.crlf
                ++ "/dev/ad0s1f 8000000 1000 4000000 1% /var"))
  | Inetd => (true, screen "cat /etc/inetd.conf" inetd_conf)
  | ShowConn p =>
      (true, screen "cli" ("set system services " ++ p ++ " connection-limit 10"))
  | ShowRate p =>
      (true, screen "cli" ("set system services " ++ p ++ " rate-limit 50"))
  | Sha1 =>
      (true, screen "sha1 /var/tmp/junos.tgz"
               ("SHA1 (/var/tmp/junos.tgz) = " ++ sha))
  | _ => (true, prompt)
  end.

Definition cli : args :=
  {| filepath := "images/junos.tgz"; host := "r1";
     remotedir_opt := None; scp_flag := false |}.

Definition cli_scp : args :=
  {| filepath := "images/junos.tgz"; host := "r1";
     remotedir_opt := None; scp_flag := true |}.

(** A 1 MB file, every port open, a device that answers every command. *)
Definition good : world :=
  {| isfile := true;
     getsize := 1048576;
     nc := fun _ => Returned 0;
     shell_open := None;
     sha1_file := Some (sha ++ Py.nl);
     shasum := Returned (sha ++ "  images/junos.tgz" ++ Py.nl);
     split_call := Returned 0;
     listing := ["junos.tgzaa"; "junos.tgzab"; "junos.tgzac"];
     shell := device;
     callbacks := [0; 1; 2; 0; 1; 2; 0; 1; 2; 0; 1; 2; 0]%nat;
     gathered := None |}.

(** [w] with another reply at one call site. *)
Definition site_eqb (s t : site) : bool :=
  match s, t with
  | Uname, Uname | TestDir, TestDir | CleanupStale, CleanupStale | Df, Df
  | Mkdir, Mkdir | Inetd, Inetd | Commit, Commit
  | CleanupScpError, CleanupScpError | CleanupInterrupt, CleanupInterrupt
  | Join, Join | CleanupJoined, CleanupJoined | Ls, Ls | Sha1, Sha1
  | CleanupMismatch, CleanupMismatch | CleanupMissing, CleanupMissing
  | CleanupOuterInterrupt, CleanupOuterInterrupt => true
  | ShowConn p, ShowConn q | ShowRate p, ShowRate q => String.eqb p q
  | _, _ => false
  end.

Definition with_reply (w : world) (s : site) (r : bool * string) : world :=
  {| isfile := isfile w; getsize := getsize w; nc := nc w;
     shell_open := shell_open w; sha1_file := sha1_file w;
     shasum := shasum w; split_call := split_call w; listing := listing w;
     shell := fun t => if site_eqb t s then r else shell w t;
     callbacks := callbacks w; gathered := gathered w |}.

Definition with_gathered (w : world) (e : option exn) : world :=
  {| isfile := isfile w; getsize := getsize w; nc := nc w;
     shell_open := shell_open w; sha1_file := sha1_file w;
     shasum := shasum w; split_call := split_call w; listing := listing w;
     shell := shell w; callbacks := callbacks w; gathered := e |}.

Definition with_nc (w : world) (f : string -> called Z) : world :=
  {| isfile := isfile w; getsize := getsize w; nc := f;
     shell_open := shell_open w; sha1_file := sha1_file w;
     shasum := shasum w; split_call := split_call w; listing := listing w;
     shell := shell w; callbacks := callbacks w; gathered := gathered w |}.

Definition with_size (w : world) (n : Z) : world :=
  {| isfile := isfile w; getsize := n; nc := nc w;
     shell_open := shell_open w; sha1_file := sha1_file w;
     shasum := shasum w; split_call := split_call w; listing := listing w;
     shell := shell w; callbacks := callbacks w; gathered := gathered w |}.

(** [uname -i] succeeds and the session shows a single line of text. *)
Definition one_line_probe : world := with_reply good Uname (true, "FreeBSD").

End Sample.

(** * Properties *)

(** ** Runs: traces and outcomes of composed computations *)

Section Runs.

Context {A B : Type}.


Lemma outcome_bind (m : M A) (k : A -> M B) :
  outcome (bind m k)
  = match outcome m with
    | Ok a => outcome (k a)
    | Raise e => Raise e
    | Exit code => Exit code
    end.
Proof. unfold bind, outcome. destruct (snd m); reflexivity. Qed.



End Runs.

Section Handlers.

Context {A : Type}.



End Handlers.

(** A computation is [quiet] for a class of events when it causes none
    outside it. *)
Definition quiet {A} (P : event -> Prop) (m : M A) : Prop :=
  Forall P (trace m).

Section Quiet.

Variable P : event -> Prop.











End Quiet.

(** ** Chunk size *)

(** The remote OS marker, as the chunk planner reads it off the reply to
    [uname -i]: the probe failed, or the second line of what the session
    showed starts with JNPR, or it does not. *)
Inductive os_marker : Type := Jnpr | NotJnpr | ProbeFailed.

Definition marker_of (reply : bool * string) : option os_marker :=
  if fst reply then
    match Py.index (Py.split_lines (snd reply)) 1 with
    | Some line =>
        Some (if Py.re_match "JNPR" (Py.rstrip line) then Jnpr else NotJnpr)
    | None => None
    end
  else Some ProbeFailed.

(** The number of chunks planned for a protocol and a marker. *)
Definition chunk_divisor (f : copy_func) (m : os_marker) : Z :=
  match f, m with
  | ftp_put, _ => 40
  | scp_put, Jnpr => 20
  | scp_put, _ => 13
  end.

(** The chunk size the planner is specified to produce. *)
Definition planned_chunk_size (file_size : Z) (f : copy_func) (m : os_marker) : Z :=
  file_size / chunk_divisor f m.

Lemma split_bytes_ftp (w : world) (F : Z) :
  split_bytes w F ftp_put = ret (F / 40).
Proof. reflexivity. Qed.

Lemma split_bytes_scp (w : world) (F : Z) (m : os_marker) :
  marker_of (shell w Uname) = Some m ->
  split_bytes w F scp_put
  = ([Run Uname "uname -i"], Ok (planned_chunk_size F scp_put m)).
Proof.
  unfold marker_of, split_bytes, run, bind, emit, lift, ret; simpl.
  destruct (shell w Uname) as [ok text]; simpl.
  destruct ok; simpl.
  - destruct (Py.index (Py.split_lines text) 1) as [line|]; simpl; [|discriminate].
    destruct (Py.re_match "JNPR" (Py.rstrip line)); simpl;
      intros [= <-]; reflexivity.
  - intros [= <-]. reflexivity.
Qed.

Lemma split_bytes_planned (w : world) (F : Z) (f : copy_func) (m : os_marker) :
  f = ftp_put \/ marker_of (shell w Uname) = Some m ->
  outcome (split_bytes w F f) = Ok (planned_chunk_size F f m).
Proof.
  destruct f.
  - intros _. reflexivity.
  - intros [H|H]; [discriminate|]. now rewrite (split_bytes_scp w F m H).
Qed.

Lemma split_size_str (w : world) (F : Z) (f : copy_func) (n : Z) :
  outcome (split_bytes w F f) = Ok n ->
  outcome (split_size w F f) = Ok (Py.str n).
Proof. unfold split_size. rewrite outcome_bind. now intros ->. Qed.

(** A probe that succeeds with a single line of text ends the run with an
    [IndexError]: no chunk size is computed. *)
Lemma split_bytes_one_line (w : world) (F : Z) :
  marker_of (shell w Uname) = None ->
  outcome (split_bytes w F scp_put) = Raise IndexError.
Proof.
  unfold marker_of, split_bytes, run, bind, emit, lift, ret, outcome; simpl.
  destruct (shell w Uname) as [ok text]; simpl.
  destruct ok; simpl; [|discriminate].
  destruct (Py.index (Py.split_lines text) 1); simpl; [|reflexivity].
  discriminate.
Qed.

(** C1, as amended.  The chunk size is a function of the file size, the
    protocol and what the probe shows of the remote OS marker: over FTP it is
    [file_size / 40] whatever the device says; over SCP it is [file_size / 20]
    when [uname -i] succeeds and the second line of what the session showed
    starts with JNPR, [file_size / 13] both when it succeeds with a second
    line that does not and when it fails, and there is no chunk size when it
    succeeds with a text of one line: indexing the second line raises
    [IndexError].  The text handed to [split -b] is that number in decimal.
    Two worlds whose probes show the same get the same size. *)
Theorem chunk_size_by_protocol_and_marker (w : world) (F : Z) (f : copy_func) :
  outcome (split_bytes w F f)
  = match f, marker_of (shell w Uname) with
    | ftp_put, _ => Ok (F / 40)
    | scp_put, Some Jnpr => Ok (F / 20)
    | scp_put, Some (NotJnpr | ProbeFailed) => Ok (F / 13)
    | scp_put, None => Raise IndexError
    end
  /\ outcome (split_size w F f)
     = match outcome (split_bytes w F f) with
       | Ok n => Ok (Py.str n)
       | Raise e => Raise e
       | Exit code => Exit code
       end
  /\ forall w',
       f = ftp_put \/ marker_of (shell w' Uname) = marker_of (shell w Uname) ->
       outcome (split_size w' F f) = outcome (split_size w F f).
Proof.
  assert (forall v, outcome (split_bytes v F f)
                    = match f, marker_of (shell v Uname) with
                      | ftp_put, _ => Ok (F / 40)
                      | scp_put, Some Jnpr => Ok (F / 20)
                      | scp_put, Some (NotJnpr | ProbeFailed) => Ok (F / 13)
                      | scp_put, None => Raise IndexError
                      end) as E.
  { intros v. destruct f; [reflexivity|].
    destruct (marker_of (shell v Uname)) as [m|] eqn:Hm.
    - rewrite (split_bytes_scp v F m Hm). now destruct m.
    - now apply split_bytes_one_line. }
  assert (forall v, outcome (split_size v F f)
                    = match outcome (split_bytes v F f) with
                      | Ok n => Ok (Py.str n)
                      | Raise e => Raise e
                      | Exit code => Exit code
                      end) as S.
  { intros v. unfold split_size. rewrite (outcome_bind (split_bytes v F f)).
    now destruct (outcome (split_bytes v F f)). }
  split; [apply E|]. split; [apply S|].
  intros w' H. rewrite !S, !E. destruct f; [reflexivity|].
  destruct H as [H|H]; [discriminate H | now rewrite H].
Qed.

Lemma chunk_size_by_protocol_and_marker_witness :
  outcome (split_bytes Sample.good 1048576 scp_put) = Ok (1048576 / 20)
  /\ outcome (split_size Sample.good 1048576 scp_put) = Ok "52428"
  /\ outcome (split_bytes Sample.one_line_probe 1048576 scp_put) = Raise IndexError.
Proof.
  split; [|split].
  - exact (proj1 (chunk_size_by_protocol_and_marker Sample.good 1048576 scp_put)).
  - exact (proj1 (proj2 (chunk_size_by_protocol_and_marker Sample.good 1048576
                           scp_put))).
  - exact (proj1 (chunk_size_by_protocol_and_marker Sample.one_line_probe 1048576
                    scp_put)).
Defined.

(** C1, as stated, fails: a probe that succeeds and shows one line of text
    without the marker does not give [file_size / 13]; the second line is
    indexed before the marker is looked for, the [IndexError] is caught by
    no clause of [main], and the run ends with status 1 before the split. *)
Lemma chunk_size_undefined_on_one_line_probe :
  fst (shell Sample.one_line_probe Uname) = true
  /\ Py.re_search "JNPR" (snd (shell Sample.one_line_probe Uname)) = false
  /\ outcome (split_bytes Sample.one_line_probe 1048576 scp_put) = Raise IndexError
  /\ outcome (split_bytes Sample.one_line_probe 1048576 scp_put)
     <> Ok (1048576 / 13)
  /\ main Sample.cli_scp Sample.one_line_probe
     = ([Out "checking remote port(s) are open..."; Nc "22"; OpenShell;
         Run Uname "uname -i"],
        Raise IndexError)
  /\ exit_status (outcome (main Sample.cli_scp Sample.one_line_probe)) = 1.
Proof.
  repeat split; try reflexivity. discriminate.
Qed.

(** C9. There is no floor on the chunk size: a file smaller than the number
    of chunks planned for it (40 over FTP, 20 or 13 over SCP) gets the chunk
    size 0, handed to [split -b] as the text 0; and no file size from 0 up
    gets a negative one. *)
Theorem chunk_size_zero_below_divisor
  (w : world) (F : Z) (f : copy_func) (m : os_marker) :
  f = ftp_put \/ marker_of (shell w Uname) = Some m ->
  0 <= F ->
  exists n,
    outcome (split_bytes w F f) = Ok n
    /\ outcome (split_size w F f) = Ok (Py.str n)
    /\ 0 <= n
    /\ (F < chunk_divisor f m -> n = 0 /\ Py.str n = "0").
Proof.
  intros H HF. pose proof (split_bytes_planned w F f m H) as E.
  exists (planned_chunk_size F f m). split; [exact E|].
  split; [now apply split_size_str|].
  assert (0 < chunk_divisor f m) as Hd by (destruct f, m; reflexivity).
  unfold planned_chunk_size. split.
  - apply Z.div_pos; lia.
  - intros Hlt. rewrite Z.div_small by lia. split; reflexivity.
Qed.

Lemma chunk_size_zero_below_divisor_witness :
  exists n,
    outcome (split_bytes Sample.good 39 ftp_put) = Ok n
    /\ outcome (split_size Sample.good 39 ftp_put) = Ok (Py.str n)
    /\ 0 <= n
    /\ (39 < chunk_divisor ftp_put Jnpr -> n = 0 /\ Py.str n = "0").
Proof.
  apply (chunk_size_zero_below_divisor Sample.good 39 ftp_put Jnpr
           (or_introl eq_refl)).
  lia.
Defined.

(** ** The phases of a run *)

(** Every event but [print] belongs to one phase of [main]. *)
Inductive phase : Type :=
| Selecting      (* port checks *)
| Preparing      (* shell, local sha1, chunk size, split *)
| Checking       (* pre transfer checks, creation of the remote tmp directory *)
| Negotiating    (* limit_check *)
| Transferring   (* fan-out, fan-in and their handlers *)
| Verifying      (* join, removal of the remote tmp directory, sha1 *)
| Closing.       (* outer interrupt handler, dev.close(), durations *)

Definition phase_of (e : event) : option phase :=
  match e with
  | Out _ => None
  | Nc _ => Some Selecting
  | OpenShell | Shasum | SplitCmd _ | Run Uname _ => Some Preparing
  | Run (TestDir | CleanupStale | Df | Mkdir) _ => Some Checking
  | Run (Inetd | ShowConn _ | ShowRate _ | Commit) _ => Some Negotiating
  | Put _ _ | Gather | Run (CleanupScpError | CleanupInterrupt) _ => Some Transferring
  | Run (Join | CleanupJoined | Ls | Sha1 | CleanupMismatch | CleanupMissing) _ =>
      Some Verifying
  | Run CleanupOuterInterrupt _ | DevClose | OutTimes => Some Closing
  end.

Definition phase_eqb (p q : phase) : bool :=
  match p, q with
  | Selecting, Selecting | Preparing, Preparing | Checking, Checking
  | Negotiating, Negotiating | Transferring, Transferring
  | Verifying, Verifying | Closing, Closing => true
  | _, _ => false
  end.

(** [e] is a message or an event of one of the phases [ps]. *)
Definition within (ps : list phase) (e : event) : Prop :=
  match phase_of e with
  | None => True
  | Some p => existsb (phase_eqb p) ps = true
  end.

























Lemma quiet_weaken {A} (ps qs : list phase) (m : M A) :
  (forall p, existsb (phase_eqb p) ps = true -> existsb (phase_eqb p) qs = true) ->
  quiet (within ps) m -> quiet (within qs) m.
Proof.
  intros H. unfold quiet. apply Forall_impl. intros e. unfold within.
  destruct (phase_of e); auto.
Qed.

Ltac weaken_to lem :=
  eapply quiet_weaken; [| apply lem];
  let p := fresh "p" in intros p; destruct p; simpl; auto.

(** ** Decomposing a run of [session] and of [main] *)












(** ** Protocol selection *)




























Module SampleRuns.



End SampleRuns.

(** ** The remote storage check *)

Section Forward.

Context {A B : Type}.




End Forward.
















Module SpaceRuns.

(** [df] reports [blocks] free 512-byte blocks. *)
Definition df_reply (blocks : string) : bool * string :=
  (true, Sample.screen "df /var/tmp"
           ("Filesystem 512-blocks Used Avail Capacity Mounted on" ++ Py.crlf
            ++ "/dev/ad0s1f 8000000 1000 " ++ blocks ++ " 1% /var")).


(** Exactly twice the size: 4096 blocks. *)
Definition exact : world := Sample.with_reply Sample.good Df (df_reply "4096").

End SpaceRuns.


(** ** The limit negotiator *)



Fixpoint sequence {A} (l : list (option A)) : option (list A) :=
  match l with
  | [] => Some []
  | Some a :: rest => option_map (cons a) (sequence rest)
  | None :: _ => None
  end.







(** A [set] statement rewritten into a [deactivate] statement. *)
Definition rewrite_statement (line : string) : string :=
  Py.re_sub_literal "set" "deactivate" (Py.sub_trailing_number line) ++ ";".













(** ** Exit codes *)





























(** ** Protocol selection, for every answer of the probes *)







(** ** Join and verification *)


















Module VerifyRuns.


(** The joined file has another digest. *)
Definition sha1_wrong : world :=
  Sample.with_reply Sample.good Sha1
    (true, Sample.screen "sha1 /var/tmp/junos.tgz"
             "SHA1 (/var/tmp/junos.tgz) = 0000000000000000000000000000000000000000").

End VerifyRuns.




(** ** The limit negotiator: what it runs and when it returns *)


Lemma sequence_app {A} (l1 l2 : list (option A)) :
  sequence (l1 ++ l2)
  = match sequence l1, sequence l2 with
    | Some a, Some b => Some (a ++ b)%list
    | _, _ => None
    end.
Proof.
  induction l1 as [|[x|] l1 IH]; simpl.
  - destruct (sequence l2); reflexivity.
  - rewrite IH. destruct (sequence l1), (sequence l2); reflexivity.
  - reflexivity.
Qed.




Lemma bind_raise {A B} (l : list event) (e : exn) (k : A -> M B) :
  bind (l, Raise e) k = (l, Raise e).
Proof. reflexivity. Qed.




Arguments check_ports : simpl never.






(** ** Rewriting a [set] statement *)








Example rewrite_set_statement_ex :
  rewrite_statement "set system services ssh connection-limit 10"
  = "deactivate system services ssh connection-limit;".
Proof. reflexivity. Qed.

(** ** The service lines *)






(** ** The limit negotiator: success and failure *)








Module LimitRuns.






End LimitRuns.


(** ** Where the verification sits in a run *)






(** ** The staging directory *)

Definition is_cleanup (s : site) : bool :=
  match s with
  | CleanupStale | CleanupScpError | CleanupInterrupt | CleanupJoined
  | CleanupMismatch | CleanupMissing | CleanupOuterInterrupt => true
  | _ => false
  end.




Module CleanupRuns.




End CleanupRuns.






(** ** Cleanup on the ways out *)

(** The [remote_cleanup] commands of a trace. *)
Definition cleanups (l : list event) : list event :=
  filter (fun e => match e with Run s _ => is_cleanup s | _ => false end) l.


(** The sibling paths do clean up: an SCP error and an interrupt during the
    transfer, a checksum mismatch and a missing joined file each call
    [remote_cleanup] before [sys.exit(1)]. *)
Lemma staging_removed_on_sibling_paths :
  cleanups (trace (main Sample.cli_scp
                     (Sample.with_gathered Sample.good (Some (SCPException "lost")))))
  = [Run CleanupStale "rm -rf /var/tmp/splitcopy_junos.tgz";
     Run CleanupScpError "rm -rf /var/tmp/splitcopy_junos.tgz"]
  /\ cleanups (trace (main Sample.cli_scp
                        (Sample.with_gathered Sample.good (Some KeyboardInterrupt))))
     = [Run CleanupStale "rm -rf /var/tmp/splitcopy_junos.tgz";
        Run CleanupInterrupt "rm -rf /var/tmp/splitcopy_junos.tgz"]
  /\ cleanups (trace (main Sample.cli_scp VerifyRuns.sha1_wrong))
     = [Run CleanupStale "rm -rf /var/tmp/splitcopy_junos.tgz";
        Run CleanupJoined "rm -rf /var/tmp/splitcopy_junos.tgz";
        Run CleanupMismatch "rm -rf /var/tmp/splitcopy_junos.tgz"].
Proof. repeat split. Qed.

(** ** Cleanup failures do not change a run *)

(** The calls of [remote_cleanup] whose result [main] does not look at:
    all but the removal of a stale directory before the transfer. *)
Definition result_ignored (s : site) : bool :=
  match s with
  | CleanupScpError | CleanupInterrupt | CleanupJoined
  | CleanupMismatch | CleanupMissing | CleanupOuterInterrupt => true
  | _ => false
  end.

(** [w] with other replies to those calls. *)
Definition with_cleanup_replies (w : world) (r : site -> bool * string) : world :=
  {| isfile := isfile w; getsize := getsize w; nc := nc w;
     shell_open := shell_open w; sha1_file := sha1_file w;
     shasum := shasum w; split_call := split_call w; listing := listing w;
     shell := fun s => if result_ignored s then r s else shell w s;
     callbacks := callbacks w; gathered := gathered w |}.

Definition is_undeleted (e : event) : bool :=
  match e with
  | Out msg =>
      String.eqb msg
        "unable to delete the tmp directory on remote host, delete it manually"
  | _ => false
  end.









Section Replies.

Variable w : world.
Variable r : site -> bool * string.

Let w' : world := with_cleanup_replies w r.









End Replies.


(** The mismatch run with every ignored removal failing: same exit, same
    commands, two more warnings. *)
Example cleanup_failure_only_reported_ex :
  let w' := with_cleanup_replies VerifyRuns.sha1_wrong
              (fun _ => (false, Sample.prompt)) in
  outcome (main Sample.cli w') = Exit 1
  /\ length (filter is_undeleted (trace (main Sample.cli w'))) = 2%nat
  /\ length (filter is_undeleted (trace (main Sample.cli VerifyRuns.sha1_wrong)))
     = 0%nat.
Proof. repeat split. Qed.

(** ** Progress reports *)



(** The lines [n] callbacks print, from a running total, a file size and a
    remembered percentage. *)
Fixpoint progress_lines (F total last : Z) (n : nat) : list event :=
  match n with
  | O => []
  | S n' =>
      match percent_of (total + 8192) F with
      | Returned p =>
          ((if negb (last =? p) && (p mod 10 =? 0)
            then [Out (Py.str p ++ "% done")] else [])
           ++ progress_lines F (total + 8192) p n')%list
      | Raised _ => progress_lines F (total + 8192) last n'
      end
  end.




(** Thirteen blocks of a 1 MB file, from three chunks in turn or all from
    one: the same single line.  A 320 KB file after 23 blocks stands at 57
    percent (binary64: 0.575 * 100 is just under 57.5). *)
Example progress_in_tens_ex :
  snd (run_callbacks [UploadProgress_init 1048576]
         (make_tasks ftp_put (FtpArgs 0%nat) ["aa"; "ab"; "ac"])
         [0; 1; 2; 0; 1; 2; 0; 1; 2; 0; 1; 2; 0]%nat)
  = [Out "10% done"]
  /\ snd (run_callbacks [UploadProgress_init 1048576]
            (make_tasks ftp_put (FtpArgs 0%nat) ["aa"; "ab"; "ac"])
            (repeat 2%nat 13))
     = [Out "10% done"]
  /\ percent_of (8192 * 23) 327680 = Returned 57
  /\ progress_lines 24576 0 0 3 = [Out "100% done"].
Proof. repeat split. Qed.

(** * Further properties of the script *)

(** ** [main], part by part *)








(** ** Exit codes *)




(** ** The pre transfer checks *)


Module StaleRuns.


End StaleRuns.




(** ** Failures of the shell session *)



Module ShellRuns.




End ShellRuns.


(** ** The file name *)




Example file_name_is_last_component_ex :
  file_name_of Sample.cli = "junos.tgz"
  /\ file_name_of {| filepath := "/a/b/"; host := "r1"; remotedir_opt := None;
                     scp_flag := false |} = "".
Proof. split; reflexivity. Qed.

(** ** The digests that are compared *)









(** ** Limits that need no change *)





Module RoomyRuns.

Definition inetd_conf : string :=
  "ftp stream tcp/0/0/25/100 nowait root /usr/libexec/ftpd ftpd" ++ Py.crlf
  ++ "ssh stream tcp/0/0/75/150 nowait root /usr/sbin/sshd sshd -i".



End RoomyRuns.


(** ** [port_check] *)


Example port_check_contract_ex :
  port_check (Sample.with_nc Sample.good (fun _ => Raised (TimeoutExpired "nc")))
             "ssh" "22"
  = ([Nc "22";
      Out "ssh port check timed out after 10 seconds, is the host reacheable and ssh enabled?"],
     Ok false).
Proof. reflexivity. Qed.

(** ** The progress object on an empty file *)



(** ** One staging directory *)


















(** ** The transfer, path by path *)










Module TransferRuns.


End TransferRuns.


(** ** The fan-out *)












(** ** An interrupt outside the fan-in *)


Module InterruptRuns.


End InterruptRuns.


(** ** inetd.conf without a service line *)


Module InetdRuns.


End InetdRuns.


(** ** The return code of [split] *)

Definition with_split (w : world) (r : called Z) : world :=
  {| isfile := isfile w; getsize := getsize w; nc := nc w;
     shell_open := shell_open w; sha1_file := sha1_file w;
     shasum := shasum w; split_call := r; listing := listing w;
     shell := shell w; callbacks := callbacks w; gathered := gathered w |}.







Example split_return_code_ignored_ex :
  main Sample.cli (with_split Sample.good (Returned 2))
  = main Sample.cli Sample.good.
Proof. reflexivity. Qed.

(** ** The two ways out that leave the staging directory *)


















